(** * The postgres migration driver (driver/postgres/postgres.go)

    A shallow embedding of [Driver.Migrate], [Driver.SetSimulate] and
    [Driver.Version].  The driver talks to three collaborators: the
    database connection ([database/sql]), the migration file (package
    [file]) and the progress channel [pipe].  The database and the file
    system are an abstract environment [Env] that answers every call and
    threads its own state; every call and every channel operation is
    recorded, in program order, in a trace of [action]s.

    Assumptions of the model, none of which the source checks:
    [driver.db] is an open handle (Initialize succeeded), [pipe] is an
    open channel that only Migrate writes to, and the consumer drains the
    channel, so that no send blocks for ever. *)

From Stdlib Require Import ZArith NArith List String Ascii Bool Lia.
From Stdlib Require Import DecimalString.
From Stdlib Require Import DecimalN.
Import ListNotations.

Local Open Scope Z_scope.
Local Open Scope list_scope.

Infix "+++" := String.append (right associativity, at level 60).

(** ** Go values *)

(** Go's [uint64]: [Version] is only ever printed and compared. *)
Definition uint64 := N.

(** Package [github.com/lib/pq]: the fields of [pq.Error] that Migrate
    reads. *)
Module pq.
Record Error := mkError {
  Severity : string;
  Code : string;
  Message : string;
  Position : string
}.
End pq.

(** The dynamic types an [error] interface value takes in this program:
    [*pq.Error], the sentinel [sql.ErrNoRows], [*strconv.NumError], and
    [*errors.errorString], what [errors.New] builds and what the plain
    errors of [database/sql] are. *)
Inductive error :=
| pq_Error_ptr (e : pq.Error)
| sql_ErrNoRows
| strconv_NumError (fn num msg : string)
| errorString (s : string).

Module errors.
Definition New (s : string) : error := errorString s.
End errors.

(** Modelled from the spec: package [direction] is not among the sources.
    A direction is an integer with two named values; the driver only
    compares a file's direction with them. *)
Module direction.
Definition Direction := Z.
Definition Up : Direction := 1.
Definition Down : Direction := -1.
End direction.

(** Modelled from the spec: the [file.File] struct is not among the
    sources.  These are the fields Migrate reads. *)
Module file.
Record File := mkFile {
  Version : uint64;
  Direction : direction.Direction;
  Content : string
}.
End file.

(** What travels on [pipe chan interface{}]. *)
Inductive value :=
| VFile (f : file.File)
| VString (s : string)
| VError (e : error).

(** One observable step of a run, with the answer the environment gave. *)
Inductive action :=
| Send (v : value)
| Close
| Begin (r : option error)
| Exec (q : string) (r : option error)
| Rollback (r : option error)
| Commit (r : option error)
| ReadContent (r : option error) (f' : file.File).

(** ** Text helpers *)

Definition nl : string := String "010"%char EmptyString.
Definition dquote : string := String "034"%char EmptyString.

(** [%v] on an unsigned and on a signed integer. *)
Definition fmt_uint (n : N) : string := NilZero.string_of_uint (N.to_uint n).
Definition fmt_int (z : Z) : string := NilZero.string_of_int (Z.to_int z).

Definition tableName : string := "schema_migrations"%string.

Definition separator : string :=
  "--------------------------------"%string +++ nl.

Definition create_table_stmt : string :=
  "CREATE TABLE IF NOT EXISTS "%string +++ dquote +++ tableName +++ dquote
  +++ " (version int not null primary key);"%string.

Definition insert_stmt (v : uint64) : string :=
  "INSERT INTO "%string +++ dquote +++ tableName +++ dquote
  +++ " (version) VALUES ("%string +++ fmt_uint v +++ ")"%string.

Definition delete_stmt (v : uint64) : string :=
  "DELETE FROM "%string +++ dquote +++ tableName +++ dquote
  +++ " WHERE version="%string +++ fmt_uint v.

Definition version_query : string :=
  "SELECT version FROM "%string +++ tableName
  +++ " ORDER BY version DESC LIMIT 1"%string.

(** The two messages of the body-failure path. *)
Definition located_message (e : pq.Error) (lineNo columnNo : Z)
    (errorPart : string) : string :=
  pq.Severity e +++ " "%string +++ pq.Code e +++ ": "%string +++ pq.Message e
  +++ " in line "%string +++ fmt_int lineNo
  +++ ", column "%string +++ fmt_int columnNo
  +++ ":"%string +++ nl +++ nl +++ errorPart.

Definition plain_message (e : pq.Error) : string :=
  pq.Severity e +++ " "%string +++ pq.Code e +++ ": "%string +++ pq.Message e.

(** ** strconv.Atoi

    The standard library's parser on a 64-bit platform: an optional sign,
    then one or more decimal digits; a syntax error yields 0, a value
    outside [int] yields the nearest bound, both with a [*NumError]. *)

Module strconv.

Definition maxInt : Z := 2 ^ 63 - 1.
Definition minInt : Z := - 2 ^ 63.

Definition digit_of (c : ascii) : option Z :=
  let n := Z.of_nat (nat_of_ascii c) in
  if (48 <=? n) && (n <=? 57) then Some (n - 48) else None.

Fixpoint parse_digits (s : string) (acc : Z) : option Z :=
  match s with
  | EmptyString => Some acc
  | String c s' =>
      match digit_of c with
      | Some d => parse_digits s' (acc * 10 + d)
      | None => None
      end
  end.

Definition syntax_error (s : string) : error :=
  strconv_NumError "Atoi" s "invalid syntax".
Definition range_error (s : string) : error :=
  strconv_NumError "Atoi" s "value out of range".

Definition Atoi (s0 : string) : Z * option error :=
  let '(neg, s) :=
    match s0 with
    | String "-"%char s' => (true, s')
    | String "+"%char s' => (false, s')
    | _ => (false, s0)
    end in
  match s with
  | EmptyString => (0, Some (syntax_error s0))
  | _ =>
      match parse_digits s 0 with
      | None => (0, Some (syntax_error s0))
      | Some un =>
          if negb neg && (maxInt <? un) then (maxInt, Some (range_error s0))
          else if neg && (- minInt <? un) then (minInt, Some (range_error s0))
          else (if neg then - un else un, None)
      end
  end.

End strconv.

(** ** The environment *)

(** The database behind [driver.db], the transaction it hands out, the
    file system behind [File.ReadContent], and the two position helpers of
    package [file], whose code is not among the sources.  [W] is whatever
    state the outside world keeps between calls. *)
Record Env := mk_Env {
  W : Type;
  db_Begin : W -> option error * W;
  tx_Exec : string -> W -> option error * W;
  tx_Rollback : W -> option error * W;
  tx_Commit : W -> option error * W;
  file_ReadContent : file.File -> W -> option error * file.File * W;
  db_QueryRow_Scan : string -> W -> option error * uint64 * W;
  file_LineColumnFromOffset : string -> Z -> Z * Z;
  file_LinesBeforeAndAfter : string -> Z -> Z -> Z -> bool -> string
}.

(** ** The driver *)

(** The struct's handle [db] is the environment: the world a run starts
    from stands for the open connection. *)
Record Driver := mk_Driver {
  simulate : bool;
  createdVersionTable : bool
}.

Definition SetSimulate (driver : Driver) : Driver * option error :=
  (mk_Driver true (createdVersionTable driver), None).

Definition FilenameExtension (driver : Driver) : string := "sql"%string.

(** ** A monad for Go function bodies

    A computation reads and updates the world, appends to the trace, and
    ends normally, by a [return] statement, or in a run-time panic. *)

Inductive completion (A : Type) :=
| Normal (a : A)
| Returned
| Panicked (msg : string).
Arguments Normal {A} a.
Arguments Returned {A}.
Arguments Panicked {A} msg.

Section Body.
Context (E : Env).

Definition M (A : Type) : Type := W E -> completion A * W E * list action.

Definition ret {A} (a : A) : M A := fun w => (Normal a, w, []).

Definition bind {A B} (m : M A) (k : A -> M B) : M B :=
  fun w =>
    match m w with
    | (Normal a, w1, t1) =>
        let '(c, w2, t2) := k a w1 in (c, w2, t1 ++ t2)
    | (Returned, w1, t1) => (Returned, w1, t1)
    | (Panicked msg, w1, t1) => (Panicked msg, w1, t1)
    end.

Definition return_ {A} : M A := fun w => (Returned, w, []).
Definition panic {A} (msg : string) : M A := fun w => (Panicked msg, w, []).
Definition send (v : value) : M unit := fun w => (Normal tt, w, [Send v]).

(** A call into the environment, recorded with its answer. *)
Definition call {A} (op : W E -> A * W E) (log : A -> action) : M A :=
  fun w => let '(r, w') := op w in (Normal r, w', [log r]).

Notation "x <- m ;; k" := (bind m (fun x => k))
  (at level 61, m at next level, right associativity).
Notation "' p <- m ;; k" := (bind m (fun x => let 'p := x in k))
  (at level 61, p pattern, m at next level, right associativity).
Notation "m ;; k" := (bind m (fun _ => k))
  (at level 61, right associativity).

Definition sql_DB_Begin : M (option error) := call (db_Begin E) Begin.
Definition sql_Tx_Exec (q : string) : M (option error) :=
  call (tx_Exec E q) (Exec q).
Definition sql_Tx_Rollback : M (option error) := call (tx_Rollback E) Rollback.
Definition sql_Tx_Commit : M (option error) := call (tx_Commit E) Commit.
Definition File_ReadContent (f : file.File) : M (option error * file.File) :=
  call (file_ReadContent E f) (fun r => ReadContent (fst r) (snd r)).

(** The type assertion [err.( *pq.Error )] in its one-result form. *)
Definition assert_pq_Error (err : error) : M pq.Error :=
  match err with
  | pq_Error_ptr e => ret e
  | _ => panic "interface conversion: error is not *pq.Error"
  end.

(** The closure [exec] of Migrate. *)
Definition exec (driver : Driver) (q : string) : M (option error) :=
  if simulate driver then
    send (VString (separator +++ q));;
    ret None
  else
    sql_Tx_Exec q.

(** [if err := tx.Rollback(); err != nil { pipe <- err }] *)
Definition rollback_and_report : M unit :=
  err <- sql_Tx_Rollback;;
  match err with
  | Some err => send (VError err)
  | None => ret tt
  end.

(** Lines 97 to 122 of Migrate: load the content, run the body, commit.
    Every path through the direction branch that does not return falls
    through to this code. *)
Definition Migrate_rest (driver : Driver) (f : file.File) : M unit :=
  '(err, f) <- File_ReadContent f;;
  match err with
  | Some err => send (VError err);; return_
  | None => ret tt
  end;;
  err <- exec driver (file.Content f);;
  match err with
  | Some err =>
      pqErr <- assert_pq_Error err;;
      (let '(offset, err) := strconv.Atoi (pq.Position pqErr) in
       match err with
       | None =>
           if 0 <=? offset then
             let '(lineNo, columnNo) :=
               file_LineColumnFromOffset E (file.Content f) (offset - 1) in
             let errorPart :=
               file_LinesBeforeAndAfter E (file.Content f) lineNo 5 5 true in
             send (VError (errors.New
                     (located_message pqErr lineNo columnNo errorPart)))
           else
             send (VError (errors.New (plain_message pqErr)))
       | Some _ =>
           send (VError (errors.New (plain_message pqErr)))
       end);;
      rollback_and_report;;
      return_
  | None => ret tt
  end;;
  err <- sql_Tx_Commit;;
  match err with
  | Some err => send (VError err);; return_
  | None => ret tt
  end.

(** The body of Migrate, statement by statement (lines 53 to 95, then
    [Migrate_rest]); the deferred [close(pipe)] is added by [Migrate]. *)
Definition Migrate_body (driver : Driver) (f : file.File) : M unit :=
  send (VFile f);;
  err <- sql_DB_Begin;;
  match err with
  | Some err => send (VError err);; return_
  | None => ret tt
  end;;
  err <- exec driver create_table_stmt;;
  match err with
  | Some err => send (VError err);; rollback_and_report;; return_
  | None => ret tt
  end;;
  (if file.Direction f =? direction.Up then
     err <- exec driver (insert_stmt (file.Version f));;
     match err with
     | Some err => send (VError err);; rollback_and_report;; return_
     | None => ret tt
     end
   else if file.Direction f =? direction.Down then
     err <- exec driver (delete_stmt (file.Version f));;
     match err with
     | Some err => send (VError err);; rollback_and_report;; return_
     | None => ret tt
     end
   else ret tt);;
  Migrate_rest driver f.

(** How a call ends once its body has: a [return] completes it, a panic
    goes on to the caller. *)
Definition finish (c : completion unit) : completion unit :=
  match c with Panicked msg => Panicked msg | _ => Normal tt end.

(** [defer close(pipe)] runs however the body ends, a panic included; a
    [return] completes the call. *)
Definition Migrate (driver : Driver) (f : file.File) : M unit :=
  fun w =>
    let '(c, w', t) := Migrate_body driver f w in
    (finish c, w', t ++ [Close]).

(** [Driver.Version]. *)
Definition Version (driver : Driver) : W E -> uint64 * option error * W E :=
  fun w =>
    let '(err, version, w') := db_QueryRow_Scan E version_query w in
    match err with
    | Some sql_ErrNoRows => (0%N, None, w')
    | Some err => (0%N, Some err, w')
    | None => (version, None, w')
    end.

End Body.

Arguments ret {E A} a.
Arguments bind {E A B} m k.
Arguments return_ {E A}.
Arguments panic {E A} msg.

(** ** Reading a finished run *)

Definition trace_of {X Y} (r : X * Y * list action) : list action := snd r.
Definition completion_of {X Y} (r : X * Y * list action) : X := fst (fst r).

(** The values a consumer receives, in order. *)
Fixpoint pipe_of (t : list action) : list value :=
  match t with
  | [] => []
  | Send v :: t' => v :: pipe_of t'
  | _ :: t' => pipe_of t'
  end.

Definition is_error (v : value) : bool :=
  match v with VError _ => true | _ => false end.
Definition is_string (v : value) : bool :=
  match v with VString _ => true | _ => false end.

Definition errors_of (t : list action) : list value :=
  filter is_error (pipe_of t).

Definition is_Close (a : action) : bool :=
  match a with Close => true | _ => false end.
Definition is_Exec (a : action) : bool :=
  match a with Exec _ _ => true | _ => false end.
Definition is_Rollback (a : action) : bool :=
  match a with Rollback _ => true | _ => false end.
Definition is_Commit (a : action) : bool :=
  match a with Commit _ => true | _ => false end.
Definition is_ReadContent (a : action) : bool :=
  match a with ReadContent _ _ => true | _ => false end.

(** What [exec] does with a statement: it reaches the transaction, or in
    simulate mode the channel. *)
Definition issued (d : Driver) (q : string) (r : option error) : action :=
  if simulate d then Send (VString (separator +++ q)) else Exec q r.

Definition is_statement (a : action) : bool :=
  match a with
  | Exec _ _ | Send (VString _) => true
  | _ => false
  end.

(** The actions that may follow the migration body. *)
Definition after_body (a : action) : bool :=
  match a with
  | Send (VError _) | Rollback _ | Commit _ | Close => true
  | _ => false
  end.

(** [if err != nil { pipe <- err }] as a piece of trace. *)
Definition report (r : option error) : list action :=
  match r with
  | Some e => [Send (VError e)]
  | None => []
  end.

(** The spec's event shape: a file, any number of strings, at most one
    error ... *)
Fixpoint strings_then_error (p : list value) : bool :=
  match p with
  | [] => true
  | VString _ :: p' => strings_then_error p'
  | [VError _] => true
  | _ => false
  end.

Definition spec_shape (f : file.File) (p : list value) : Prop :=
  exists rest, p = VFile f :: rest /\ strings_then_error rest = true.

(** ... and the shape the driver keeps: at most two errors. *)
Fixpoint strings_then_errors (p : list value) : bool :=
  match p with
  | [] => true
  | VString _ :: p' => strings_then_errors p'
  | [VError _] => true
  | [VError _; VError _] => true
  | _ => false
  end.

(** ** Scripted environments

    A world without state whose answers are fixed in advance.  Its
    position helper counts lines and columns from 1; its context window is
    the whole text. *)

Record script := mk_script {
  begin_r : option error;
  exec_r : string -> option error;
  rollback_r : option error;
  commit_r : option error;
  read_r : file.File -> option error * file.File
}.

Fixpoint line_column (s : string) (n : nat) (line col : Z) : Z * Z :=
  match n, s with
  | O, _ => (line, col)
  | S n', EmptyString => (line, col)
  | S n', String c s' =>
      if Ascii.eqb c "010"%char then line_column s' n' (line + 1) 1
      else line_column s' n' line (col + 1)
  end.

Definition scripted (sc : script) : Env :=
  {| W := unit;
     db_Begin := fun w => (begin_r sc, w);
     tx_Exec := fun q w => (exec_r sc q, w);
     tx_Rollback := fun w => (rollback_r sc, w);
     tx_Commit := fun w => (commit_r sc, w);
     file_ReadContent := fun f w => (read_r sc f, w);
     db_QueryRow_Scan := fun q w => (Some sql_ErrNoRows, 0%N, w);
     file_LineColumnFromOffset :=
       fun s off => line_column s (Z.to_nat off) 1 1;
     file_LinesBeforeAndAfter := fun s line before after numbers => s |}.

Definition fails_on (q : string) (e : error) : string -> option error :=
  fun q' => if String.eqb q' q then Some e else None.

Definition bad_connection : error := errorString "driver: bad connection".
Definition permission_denied : error :=
  pq_Error_ptr (pq.mkError "ERROR" "42501"
                  "permission denied for schema public" EmptyString).
Definition syntax_at_8 : error :=
  pq_Error_ptr (pq.mkError "ERROR" "42601"
                  "syntax error at or near TBLE" "8").
Definition syntax_nowhere : error :=
  pq_Error_ptr (pq.mkError "ERROR" "42601"
                  "syntax error at end of input" EmptyString).
Definition no_such_file : error :=
  errorString "open 003_t.up.sql: no such file or directory".

Definition up3 : file.File :=
  file.mkFile 3%N direction.Up "CREATE TABLE t(x int);".
Definition up4 : file.File :=
  file.mkFile 4%N direction.Up "CREATE TBLE t(x int);".
Definition down3 : file.File :=
  file.mkFile 3%N direction.Down "DROP TABLE t;".
Definition sideways5 : file.File := file.mkFile 5%N 0 "SELECT 1;".
Definition real_driver : Driver := mk_Driver false false.

Definition all_ok : script :=
  {| begin_r := None; exec_r := fun _ => None; rollback_r := None;
     commit_r := None; read_r := fun f => (None, f) |}.

(** The bootstrap statement is refused and the connection is lost before
    the rollback. *)
Definition bootstrap_and_rollback_fail : script :=
  {| begin_r := None;
     exec_r := fails_on create_table_stmt permission_denied;
     rollback_r := Some bad_connection;
     commit_r := None; read_r := fun f => (None, f) |}.

(** The body of [up4] is refused at its eighth character. *)
Definition body_fails (rb : option error) (e : error) : script :=
  {| begin_r := None;
     exec_r := fails_on (file.Content up4) e;
     rollback_r := rb;
     commit_r := None; read_r := fun f => (None, f) |}.

Definition read_fails : script :=
  {| begin_r := None; exec_r := fun _ => None; rollback_r := None;
     commit_r := None; read_r := fun f => (Some no_such_file, f) |}.

(** ** A database that holds the bookkeeping table

    Its state is the list of version rows; it answers the query of
    [Driver.Version] the way the engine does, with the greatest row or with
    no row at all. *)

Definition greatest (rows : list uint64) : uint64 := fold_right N.max 0%N rows.

Definition table_db : Env :=
  {| W := list uint64;
     db_Begin := fun w => (None, w);
     tx_Exec := fun q w => (None, w);
     tx_Rollback := fun w => (None, w);
     tx_Commit := fun w => (None, w);
     file_ReadContent := fun f w => (None, f, w);
     db_QueryRow_Scan := fun q rows =>
       if String.eqb q version_query then
         match rows with
         | [] => (Some sql_ErrNoRows, 0%N, rows)
         | _ => (None, greatest rows, rows)
         end
       else (Some (errorString "unsupported query"), 0%N, rows);
     file_LineColumnFromOffset := fun s off => (1, 1);
     file_LinesBeforeAndAfter := fun s line before after numbers => s |}.

(** ** More observers of a run *)

Definition is_Begin (a : action) : bool :=
  match a with Begin _ => true | _ => false end.

(** The two calls that end a transaction. *)
Definition ends_tx (a : action) : bool := is_Commit a || is_Rollback a.

(** A call that the environment answered with an error. *)
Definition failed_call (a : action) : bool :=
  match a with
  | Begin (Some _) | Exec _ (Some _) | Rollback (Some _) | Commit (Some _)
  | ReadContent (Some _) _ => true
  | _ => false
  end.

Definition is_panic {A} (c : completion A) : bool :=
  match c with Panicked _ => true | _ => false end.

Definition begin_fails : script :=
  {| begin_r := Some bad_connection; exec_r := fun _ => None;
     rollback_r := None; commit_r := None; read_r := fun f => (None, f) |}.

Definition commit_fails : script :=
  {| begin_r := None; exec_r := fun _ => None; rollback_r := None;
     commit_r := Some bad_connection; read_r := fun f => (None, f) |}.

Definition error_of (a : action) : option error :=
  match a with
  | Begin r | Exec _ r | Rollback r | Commit r | ReadContent r _ => r
  | _ => None
  end.

(** ** A model of the engine behind the driver

    An environment that keeps the bookkeeping table, to run Migrate and
    Version against each other.  Its state is the committed rows and, while
    a transaction is open, the rows as the transaction sees them.  It reads
    the statements the driver sends: the bootstrap statement changes no
    row; INSERT adds the version unless it is present (primary key) or
    above the range of the column type [int]; DELETE removes it; any other
    statement is accepted or refused by [refuse] and leaves the table
    alone.  Commit publishes the rows, rollback drops them, and the query
    of Version sees the committed rows of an existing table. *)

Fixpoint strip_prefix (p s : string) : option string :=
  match p, s with
  | EmptyString, _ => Some s
  | String c p', String c' s' =>
      if Ascii.eqb c c' then strip_prefix p' s' else None
  | String _ _, EmptyString => None
  end.

Fixpoint chop_last (s : string) : option (string * ascii) :=
  match s with
  | EmptyString => None
  | String c EmptyString => Some (EmptyString, c)
  | String c s' =>
      match chop_last s' with
      | Some (b, l) => Some (String c b, l)
      | None => None
      end
  end.

Definition read_version (s : string) : option N :=
  option_map N.of_uint (NilZero.uint_of_string s).

Inductive statement :=
| Bootstrap
| Insert (v : N)
| Delete (v : N)
| Other.

Definition insert_prefix : string :=
  "INSERT INTO "%string +++ dquote +++ tableName +++ dquote
  +++ " (version) VALUES ("%string.

Definition delete_prefix : string :=
  "DELETE FROM "%string +++ dquote +++ tableName +++ dquote
  +++ " WHERE version="%string.

Definition recognise (q : string) : statement :=
  if String.eqb q create_table_stmt then Bootstrap else
  match strip_prefix insert_prefix q with
  | Some r =>
      match chop_last r with
      | Some (digits, ")"%char) =>
          match read_version digits with
          | Some v => Insert v
          | None => Other
          end
      | _ => Other
      end
  | None =>
      match strip_prefix delete_prefix q with
      | Some r =>
          match read_version r with
          | Some v => Delete v
          | None => Other
          end
      | None => Other
      end
  end.

Record pg_state := mk_pg {
  committed : list N;
  pending : option (list N)
}.

Definition int4_max : N := 2147483647.

Definition tx_done : error :=
  errorString "sql: Transaction has already been committed or rolled back".
Definition unique_violation : error :=
  pq_Error_ptr (pq.mkError "ERROR" "23505"
                  "duplicate key value violates unique constraint"
                  EmptyString).
Definition out_of_range : error :=
  pq_Error_ptr (pq.mkError "ERROR" "22003" "integer out of range"
                  EmptyString).

Definition pg_Exec (refuse : string -> option error) (q : string)
    (w : pg_state) : option error * pg_state :=
  match pending w with
  | None => (Some tx_done, w)
  | Some rows =>
      match recognise q with
      | Bootstrap => (None, w)
      | Insert v =>
          if existsb (N.eqb v) rows then (Some unique_violation, w)
          else if (int4_max <? v)%N then (Some out_of_range, w)
          else (None, mk_pg (committed w) (Some (v :: rows)))
      | Delete v =>
          (None, mk_pg (committed w)
                   (Some (filter (fun x => negb (N.eqb x v)) rows)))
      | Other => (refuse q, w)
      end
  end.

Definition pg_Commit (w : pg_state) : option error * pg_state :=
  match pending w with
  | None => (Some tx_done, w)
  | Some rows => (None, mk_pg rows None)
  end.

Definition postgres (refuse : string -> option error)
    (load : file.File -> option error * file.File) : Env :=
  {| W := pg_state;
     db_Begin := fun w => (None, mk_pg (committed w) (Some (committed w)));
     tx_Exec := pg_Exec refuse;
     tx_Rollback := fun w => (None, mk_pg (committed w) None);
     tx_Commit := pg_Commit;
     file_ReadContent := fun f w => (load f, w);
     db_QueryRow_Scan := fun q w =>
       if String.eqb q version_query then
         match committed w with
         | [] => (Some sql_ErrNoRows, 0%N, w)
         | rows => (None, greatest rows, w)
         end
       else (Some (errorString "unsupported query"), 0%N, w);
     file_LineColumnFromOffset :=
       fun s off => line_column s (Z.to_nat off) 1 1;
     file_LinesBeforeAndAfter := fun s line before after numbers => s |}.

(** ** The driver's connection

    [Initialize] and [Close] work on the field [db] of the driver, which
    the model of Migrate leaves out (there the connection is open).  The
    connection library is an environment of its own: [sql.Open] yields a
    handle or an error, [Ping] and [Close] answer for a handle. *)

Module lifecycle.

Record SqlEnv := mk_SqlEnv {
  SW : Type;
  DB : Type;
  sql_Open : string -> string -> SW -> (error + DB) * SW;
  db_Ping : DB -> SW -> option error * SW;
  db_Close : DB -> SW -> option error * SW
}.

(** The calls into the connection library, with their answers. *)
Inductive sql_call (H : Type) :=
| Opened (driverName url : string) (r : error + H)
| Pinged (db : H) (r : option error)
| Closed (db : H) (r : option error).
Arguments Opened {H} driverName url r.
Arguments Pinged {H} db r.
Arguments Closed {H} db r.

(** The driver struct with its handle; [None] is the nil pointer of a
    driver that was never initialized. *)
Record Conn (H : Type) := mk_Conn {
  db : option H;
  flags : Driver
}.
Arguments mk_Conn {H} db flags.
Arguments db {H} c.
Arguments flags {H} c.

Section Lifecycle.
Context (S : SqlEnv).

Definition Initialize (url : string) (driver : Conn (DB S)) (w : SW S)
    : option error * Conn (DB S) * SW S * list (sql_call (DB S)) :=
  let '(r, w1) := sql_Open S "postgres" url w in
  match r with
  | inl err => (Some err, driver, w1, [Opened "postgres" url r])
  | inr h =>
      let '(err, w2) := db_Ping S h w1 in
      match err with
      | Some err =>
          (Some err, driver, w2,
           [Opened "postgres" url r; Pinged h (Some err)])
      | None =>
          (None, mk_Conn (Some h) (flags driver), w2,
           [Opened "postgres" url r; Pinged h None])
      end
  end.

(** [driver.db.Close()] on a nil handle dereferences a nil pointer. *)
Definition Close (driver : Conn (DB S)) (w : SW S)
    : completion (option error) * SW S * list (sql_call (DB S)) :=
  match db driver with
  | None => (Panicked "invalid memory address or nil pointer dereference",
             w, [])
  | Some h =>
      let '(err, w1) := db_Close S h w in
      match err with
      | Some err => (Normal (Some err), w1, [Closed h (Some err)])
      | None => (Normal None, w1, [Closed h None])
      end
  end.

End Lifecycle.

Definition is_Closed {H} (c : sql_call H) : bool :=
  match c with Closed _ _ => true | _ => false end.

End lifecycle.

(** ** Inputs for the engine and the connection *)

Definition accept_all : string -> option error := fun _ => None.
Definition loaded : file.File -> option error * file.File :=
  fun f => (None, f).
Definition unreadable : file.File -> option error * file.File :=
  fun f => (Some no_such_file, f).
Definition simulating : Driver := mk_Driver true false.

Definition one_handle : lifecycle.SqlEnv :=
  {| lifecycle.SW := unit;
     lifecycle.DB := nat;
     lifecycle.sql_Open := fun name url w => (inr 1%nat, w);
     lifecycle.db_Ping := fun h w => (None, w);
     lifecycle.db_Close := fun h w => (None, w) |}.

(** ** Properties of all the traces of a computation

    [emits P Q m]: whatever the world answers, every action of [m]
    satisfies [P], and a value that [m] yields normally satisfies [Q]. *)
Definition emits {E : Env} {A} (P : action -> Prop) (Q : A -> Prop)
    (m : M E A) : Prop :=
  forall w, Forall P (trace_of (m w)) /\
            forall a, completion_of (m w) = Normal a -> Q a.

(** ** Running the model symbolically *)

Ltac unfold_run :=
  unfold Migrate, Migrate_body, Migrate_rest, rollback_and_report, exec,
    sql_DB_Begin, sql_Tx_Exec, sql_Tx_Rollback, sql_Tx_Commit,
    File_ReadContent, assert_pq_Error, call, bind, ret, send, return_,
    panic, trace_of, completion_of, finish.

Ltac ask :=
  match goal with
  | |- context [simulate ?d] => destruct (simulate d) eqn:?
  | |- context [db_Begin ?E ?w] =>
      destruct (db_Begin E w) as [[?|] ?] eqn:?
  | |- context [tx_Exec ?E ?q ?w] =>
      destruct (tx_Exec E q w) as [[?|] ?] eqn:?
  | |- context [tx_Rollback ?E ?w] =>
      destruct (tx_Rollback E w) as [[?|] ?] eqn:?
  | |- context [tx_Commit ?E ?w] =>
      destruct (tx_Commit E w) as [[?|] ?] eqn:?
  | |- context [file_ReadContent ?E ?f ?w] =>
      destruct (file_ReadContent E f w) as [[[?|] ?] ?] eqn:?
  | |- context [file.Direction ?f =? ?x] =>
      destruct (file.Direction f =? x) eqn:?
  | |- context [strconv.Atoi ?s] =>
      destruct (strconv.Atoi s) as [? [?|]] eqn:?
  | |- context [0 <=? ?o] => destruct (0 <=? o) eqn:?
  | |- context [file_LineColumnFromOffset ?E ?c ?o] =>
      destruct (file_LineColumnFromOffset E c o) as [? ?] eqn:?
  | |- context [match ?e with pq_Error_ptr _ => _ | _ => _ end] =>
      destruct e
  end.

Ltac reduce :=
  cbn -[String.append separator create_table_stmt insert_stmt delete_stmt
        located_message plain_message strconv.Atoi Z.leb Z.eqb Z.sub].

Ltac run := unfold_run; reduce; repeat (ask; reduce).

(** Decides a membership hypothesis in an explicit trace. *)
Ltac pick H :=
  cbn [In] in H;
  repeat match type of H with
         | _ \/ _ => destruct H as [H|H]; [try discriminate H|]
         end;
  try contradiction.

(** Closes the cases whose direction test contradicts [Hd]. *)
Ltac direction_clash Hd :=
  match goal with
  | H : (file.Direction _ =? _) = _ |- _ =>
      rewrite Hd in H; cbn [Z.eqb Pos.eqb direction.Up direction.Down] in H;
      discriminate H
  end.

(** Finds where an explicit trace splits around a given action. *)
Ltac split_trace H :=
  lazymatch type of H with
  | [] = ?pre ++ _ => destruct pre; discriminate H
  | _ :: _ = ?pre ++ _ =>
      let a := fresh "a" in
      let pre' := fresh "pre" in
      destruct pre as [|a pre']; cbn [app] in H;
      [ inversion H; subst; clear H
      | injection H as <- H; split_trace H ]
  end.

(** Sorts the statements of an explicit trace into the three cases. *)
Ltac classify_statements :=
  first
    [ left; reflexivity
    | right; left; first [exists None; reflexivity | eexists; reflexivity]
    | right; right; eexists;
      first [ exists None; split; [cbn [In]; tauto | reflexivity]
            | eexists; split; [cbn [In]; tauto | reflexivity] ] ].

(** ** A small logic of traces *)

Section TraceLogic.
Context {E : Env}.

Lemma emits_ret {A} (P : action -> Prop) (Q : A -> Prop) (a : A) :
  Q a -> emits P Q (ret (E:=E) a).
Proof.
  intros Ha w; split; [constructor|].
  intros b Hb; injection Hb as <-; exact Ha.
Qed.

Lemma emits_return {A} (P : action -> Prop) (Q : A -> Prop) :
  emits P Q (@return_ E A).
Proof. intros w; split; [constructor | discriminate]. Qed.

Lemma emits_panic {A} (P : action -> Prop) (Q : A -> Prop) msg :
  emits P Q (@panic E A msg).
Proof. intros w; split; [constructor | discriminate]. Qed.

Lemma emits_send (P : action -> Prop) (v : value) :
  P (Send v) -> emits P (fun _ => True) (send E v).
Proof. intros Hv w; split; [repeat constructor; exact Hv | trivial]. Qed.

Lemma emits_call {A} (P : action -> Prop) (op : W E -> A * W E)
    (log : A -> action) :
  (forall r, P (log r)) -> emits P (fun _ => True) (call E op log).
Proof.
  intros Hlog w; unfold call, trace_of; destruct (op w) as [r w'].
  split; [repeat constructor; apply Hlog | trivial].
Qed.

Lemma emits_bind {A B} (P : action -> Prop) (Q : A -> Prop) (R : B -> Prop)
    (m : M E A) (k : A -> M E B) :
  emits P Q m -> (forall a, Q a -> emits P R (k a)) -> emits P R (bind m k).
Proof.
  intros Hm Hk w. specialize (Hm w). unfold bind, trace_of, completion_of in *.
  destruct (m w) as [[[a| |msg] w1] t1]; cbn in *.
  - destruct Hm as [Ht1 Ha]. specialize (Hk a (Ha a eq_refl) w1).
    unfold trace_of, completion_of in Hk.
    destruct (k a w1) as [[c w2] t2]; cbn in *.
    destruct Hk as [Ht2 Hc].
    split; [apply Forall_app; split; assumption | exact Hc].
  - split; [apply Hm | discriminate].
  - split; [apply Hm | discriminate].
Qed.

(** In simulate mode [exec] sends one string and reports success. *)
Lemma emits_exec_simulate (P : action -> Prop) (d : Driver) (q : string) :
  simulate d = true -> (forall v, P (Send v)) ->
  emits P (fun r => r = None) (exec E d q).
Proof.
  intros Hd Hs. unfold exec. rewrite Hd.
  eapply emits_bind; [apply emits_send, Hs|].
  intros _ _. apply emits_ret. reflexivity.
Qed.

End TraceLogic.

(** Walks a body built from [bind], branching where the source branches. *)
Ltac walk :=
  repeat first
    [ apply (emits_ret _ (fun _ => True)); exact I
    | apply emits_return
    | apply emits_panic
    | apply emits_send; solve [auto]
    | apply emits_call; solve [auto]
    | apply emits_exec_simulate; [assumption | solve [auto]]
    | match goal with
      | |- emits _ _ (bind _ _) => eapply emits_bind
      | |- forall a, _ -> emits _ _ _ =>
          let H := fresh "Hpost" in
          intros ? H; cbv beta in H; try (rewrite H in *; clear H)
      | |- emits _ _ (match ?x with Some _ => _ | None => _ end) => destruct x
      | |- emits _ _ (match ?x with pq_Error_ptr _ => _ | _ => _ end) =>
          destruct x
      | |- emits _ _ (if ?b then _ else _) => destruct b
      | |- emits _ _ (let '(_, _) := ?x in _) => destruct x
      end ].

Section Closing.
Context (E : Env).

Lemma Migrate_trace (d : Driver) (f : file.File) (w : W E) :
  trace_of (Migrate E d f w) = trace_of (Migrate_body E d f w) ++ [Close].
Proof.
  unfold Migrate, trace_of. destruct (Migrate_body E d f w) as [[c w'] t].
  reflexivity.
Qed.

(** The body itself never closes the channel. *)
Lemma Migrate_body_never_closes (d : Driver) (f : file.File) :
  emits (fun a => is_Close a = false) (fun _ => True) (Migrate_body E d f).
Proof.
  unfold Migrate_body, Migrate_rest, rollback_and_report, exec,
    sql_DB_Begin, sql_Tx_Exec, sql_Tx_Rollback, sql_Tx_Commit,
    File_ReadContent, assert_pq_Error.
  walk.
Qed.

(** With simulate set, no statement reaches the transaction and no
    rollback is ever asked for. *)
Lemma Migrate_body_simulated (d : Driver) (f : file.File) :
  simulate d = true ->
  emits (fun a => is_Exec a = false /\ is_Rollback a = false) (fun _ => True)
    (Migrate_body E d f).
Proof.
  intros Hd.
  unfold Migrate_body, Migrate_rest, sql_DB_Begin, sql_Tx_Commit,
    File_ReadContent.
  walk.
Qed.

End Closing.

(** ** The model on concrete inputs *)

Example Atoi_decimal : strconv.Atoi "42" = (42, None).
Proof. reflexivity. Qed.

Example Atoi_signed : strconv.Atoi "-7" = (-7, None).
Proof. reflexivity. Qed.

Example Atoi_empty : snd (strconv.Atoi EmptyString) <> None.
Proof. discriminate. Qed.

Example Atoi_out_of_range :
  strconv.Atoi "9223372036854775808" =
    (strconv.maxInt, Some (strconv.range_error "9223372036854775808")).
Proof. reflexivity. Qed.

Example apply_succeeds :
  Migrate (scripted all_ok) real_driver up3 tt =
    (Normal tt, tt,
     [Send (VFile up3); Begin None; Exec create_table_stmt None;
      Exec (insert_stmt 3%N) None; ReadContent None up3;
      Exec (file.Content up3) None; Commit None; Close]).
Proof. reflexivity. Qed.

Example body_without_position :
  pipe_of (trace_of
    (Migrate (scripted (body_fails None syntax_nowhere)) real_driver up4 tt)) =
    [VFile up4;
     VError (errorString "ERROR 42601: syntax error at end of input")].
Proof. reflexivity. Qed.

(** ** The channel is closed once, last *)

(** C2.  Whatever the database and the file system answer, and however
    the body ends (commit, a failed begin, statement, content load or
    commit, or a panic), the trace of Migrate is a trace without any close,
    followed by exactly one close: the channel is closed once and nothing is
    sent after that. *)
Theorem Migrate_closes_once (E : Env) (d : Driver) (f : file.File)
    (w : W E) :
  exists t,
    trace_of (Migrate E d f w) = t ++ [Close] /\
    Forall (fun a => is_Close a = false) t.
Proof.
  exists (trace_of (Migrate_body E d f w)). split.
  - apply Migrate_trace.
  - apply Migrate_body_never_closes.
Qed.

(** ** Simulate mode *)

(** C4.  After SetSimulate, a run of Migrate never hands a statement to the
    transaction and never asks for a rollback, in any environment and for
    any direction.  When begin and the content load succeed, the run sends
    the file, then each statement's text behind the separator (bootstrap,
    INSERT for Up or DELETE for Down, body), and goes on to commit; the
    content load sees the world as begin left it and commit sees it as the
    content load left it. *)
Theorem simulate_emits_statements (E : Env) (d : Driver) (f : file.File)
    (w : W E) :
  let d' := fst (SetSimulate d) in
  Forall (fun a => is_Exec a = false /\ is_Rollback a = false)
    (trace_of (Migrate E d' f w)) /\
  forall w1 f' w2 c w3,
    db_Begin E w = (None, w1) ->
    file_ReadContent E f w1 = (None, f', w2) ->
    tx_Commit E w2 = (c, w3) ->
    (file.Direction f = direction.Up ->
     Migrate E d' f w =
       (Normal tt, w3,
        [Send (VFile f); Begin None;
         Send (VString (separator +++ create_table_stmt));
         Send (VString (separator +++ insert_stmt (file.Version f)));
         ReadContent None f';
         Send (VString (separator +++ file.Content f'));
         Commit c] ++ report c ++ [Close])) /\
    (file.Direction f = direction.Down ->
     Migrate E d' f w =
       (Normal tt, w3,
        [Send (VFile f); Begin None;
         Send (VString (separator +++ create_table_stmt));
         Send (VString (separator +++ delete_stmt (file.Version f)));
         ReadContent None f';
         Send (VString (separator +++ file.Content f'));
         Commit c] ++ report c ++ [Close])).
Proof.
  intros d'. split.
  - rewrite Migrate_trace. apply Forall_app. split.
    + apply Migrate_body_simulated. reflexivity.
    + repeat constructor.
  - intros w1 f' w2 c w3 Hb Hr Hc. split; intros Hd.
    + unfold_run. cbn [simulate d' SetSimulate fst]. rewrite Hb. reduce.
      rewrite Hd. cbn [Z.eqb Pos.eqb direction.Up direction.Down]. reduce.
      rewrite Hr. reduce. rewrite Hc.
      destruct c; reflexivity.
    + unfold_run. cbn [simulate d' SetSimulate fst]. rewrite Hb. reduce.
      rewrite Hd. cbn [Z.eqb Pos.eqb direction.Up direction.Down]. reduce.
      rewrite Hr. reduce. rewrite Hc.
      destruct c; reflexivity.
Qed.

Lemma simulate_emits_statements_witness :
  Migrate (scripted all_ok) (fst (SetSimulate real_driver)) down3 tt =
    (Normal tt, tt,
     [Send (VFile down3); Begin None;
      Send (VString (separator +++ create_table_stmt));
      Send (VString (separator +++ delete_stmt 3%N));
      ReadContent None down3;
      Send (VString (separator +++ file.Content down3));
      Commit None; Close]).
Proof.
  apply (proj2 (simulate_emits_statements (scripted all_ok) real_driver
                  down3 tt)
           tt down3 tt None tt eq_refl eq_refl eq_refl).
  reflexivity.
Defined.

(** ** Bookkeeping before the body *)

(** C1.  In a run that reaches the migration body (the content load
    succeeded), the trace starts: file sent, begin succeeded, bootstrap
    statement, bookkeeping statement (INSERT of the version for Up, DELETE
    of it for Down), content load, body.  So the bookkeeping statement is
    issued before the body, both after the one begin of the run, and only
    error reports, rollback, commit and the close follow the body.  With
    simulate off, issuing is executing on the transaction; with simulate on
    it is sending the text. *)
Theorem bookkeeping_precedes_body (E : Env) (d : Driver) (f : file.File)
    (w : W E) (f' : file.File) :
  In (ReadContent None f') (trace_of (Migrate E d f w)) ->
  (file.Direction f = direction.Up ->
   exists r post,
     trace_of (Migrate E d f w) =
       Send (VFile f) :: Begin None :: issued d create_table_stmt None
       :: issued d (insert_stmt (file.Version f)) None
       :: ReadContent None f' :: issued d (file.Content f') r :: post /\
     forallb after_body post = true) /\
  (file.Direction f = direction.Down ->
   exists r post,
     trace_of (Migrate E d f w) =
       Send (VFile f) :: Begin None :: issued d create_table_stmt None
       :: issued d (delete_stmt (file.Version f)) None
       :: ReadContent None f' :: issued d (file.Content f') r :: post /\
     forallb after_body post = true).
Proof.
  unfold issued. run; intros Hin; pick Hin.
  all: injection Hin as <-.
  all: split; intros Hd; try direction_clash Hd.
  all: first [ do 2 eexists; split; reflexivity
             | exists None; eexists; split; reflexivity ].
Qed.

Lemma bookkeeping_precedes_body_witness :
  In (ReadContent None up3)
     (trace_of (Migrate (scripted all_ok) real_driver up3 tt)) /\
  exists r post,
    trace_of (Migrate (scripted all_ok) real_driver up3 tt) =
      [Send (VFile up3); Begin None; Exec create_table_stmt None;
       Exec (insert_stmt 3%N) None; ReadContent None up3;
       Exec (file.Content up3) r] ++ post /\
    forallb after_body post = true.
Proof.
  assert (Hin : In (ReadContent None up3)
                  (trace_of (Migrate (scripted all_ok) real_driver up3 tt))).
  { cbn. tauto. }
  split; [exact Hin|].
  exact (proj1 (bookkeeping_precedes_body (scripted all_ok) real_driver up3 tt
                  up3 Hin) eq_refl).
Defined.

(** ** Errors on the channel *)

(** C3, as stated, fails: when the bootstrap statement is refused and the
    rollback fails too, the consumer drains two errors. *)
Lemma two_errors_after_failed_rollback :
  ~ (List.length (errors_of (trace_of
       (Migrate (scripted bootstrap_and_rollback_fail) real_driver up3 tt)))
     <= 1)%nat.
Proof. cbn. lia. Qed.

(** C3, amended.  A drain yields at most two errors.  A run that commits
    yields none.  A run that neither commits nor panics yields at least
    one, so one or two.  Two errors come only from a failed statement
    followed by a failed rollback: the second error is the rollback's. *)
Theorem at_most_two_errors (E : Env) (d : Driver) (f : file.File)
    (w : W E) :
  let t := trace_of (Migrate E d f w) in
  (List.length (errors_of t) <= 2)%nat /\
  (In (Commit None) t -> errors_of t = []) /\
  (is_panic (completion_of (Migrate E d f w)) = false ->
   ~ In (Commit None) t ->
   (1 <= List.length (errors_of t))%nat) /\
  ((1 < List.length (errors_of t))%nat ->
   exists e1 e2 q e,
     errors_of t = [VError e1; VError e2] /\
     In (Rollback (Some e2)) t /\
     In (Exec q (Some e)) t).
Proof.
  run.
  all: split; [cbn; lia|split; [|split]].
  all: try (intros Hc; pick Hc; reflexivity).
  all: try (intros Hp Hn; first
              [ discriminate Hp
              | exfalso; apply Hn; cbn [In]; tauto
              | cbn; lia ]).
  all: cbn [errors_of pipe_of filter is_error List.length]; intros Hlen;
       try (exfalso; lia).
  all: do 4 eexists; split; [reflexivity|split; cbn [In]; tauto].
Qed.

Lemma at_most_two_errors_witness :
  (1 <= List.length (errors_of (trace_of
     (Migrate (scripted read_fails) real_driver up3 tt))))%nat /\
  exists e1 e2 q e,
    errors_of (trace_of
      (Migrate (scripted bootstrap_and_rollback_fail) real_driver up3 tt)) =
      [VError e1; VError e2] /\
    In (Rollback (Some e2))
      (trace_of
         (Migrate (scripted bootstrap_and_rollback_fail) real_driver up3 tt))
    /\
    In (Exec q (Some e))
      (trace_of
         (Migrate (scripted bootstrap_and_rollback_fail) real_driver up3 tt)).
Proof.
  split.
  - apply (proj1 (proj2 (proj2
      (at_most_two_errors (scripted read_fails) real_driver up3 tt)))).
    + reflexivity.
    + cbn. intros H.
      repeat (destruct H as [H|H]; [discriminate H|]). exact H.
  - apply (proj2 (proj2 (proj2
      (at_most_two_errors (scripted bootstrap_and_rollback_fail)
         real_driver up3 tt)))).
    cbn. lia.
Defined.

(** ** The shape of the event sequence *)

(** C8, as stated, fails: a refused body followed by a failed rollback
    gives file, error, error, which is not of the shape file, strings, at
    most one error. *)
Lemma two_errors_break_the_shape :
  ~ spec_shape up4
      (pipe_of (trace_of
         (Migrate (scripted (body_fails (Some bad_connection) syntax_at_8))
            real_driver up4 tt))).
Proof.
  intros [rest [Hp Hs]]. cbn in Hp. injection Hp as <-. discriminate Hs.
Qed.

(** C8, amended.  The first action of every run is sending the file, the
    last is the close, and the values sent after the file are strings
    followed by at most two errors; strings are sent only in simulate
    mode. *)
Theorem event_shape (E : Env) (d : Driver) (f : file.File)
    (w : W E) :
  let t := trace_of (Migrate E d f w) in
  hd_error t = Some (Send (VFile f)) /\
  last t (Send (VFile f)) = Close /\
  exists rest,
    pipe_of t = VFile f :: rest /\
    strings_then_errors rest = true /\
    (simulate d = false -> filter is_string rest = []).
Proof.
  run.
  all: split; [reflexivity|split; [reflexivity|]].
  all: eexists; split; [reflexivity|split; [reflexivity|]].
  all: intros Hs; first [discriminate Hs | reflexivity].
Qed.

Lemma event_shape_witness :
  exists rest,
    pipe_of (trace_of
      (Migrate (scripted (body_fails (Some bad_connection) syntax_at_8))
         real_driver up4 tt)) = VFile up4 :: rest /\
    strings_then_errors rest = true /\
    (simulate real_driver = false -> filter is_string rest = []).
Proof.
  apply (event_shape (scripted (body_fails (Some bad_connection) syntax_at_8))
           real_driver up4 tt).
Defined.

(** ** Failure of the body *)

(** C5.  When the content was loaded and executing it returned an engine
    error whose Position parses to a non-negative offset, what follows in
    the trace is exactly: one error whose text is the severity, code and
    message, then the line and column that LineColumnFromOffset gives for
    offset-1, then the window LinesBeforeAndAfter gives for that line with
    5 lines before and 5 after; then the rollback, its error if it failed,
    and the close. *)
Theorem body_failure_located (E : Env) (d : Driver) (f : file.File)
    (w : W E)
    (pre post : list action) (f' : file.File) (q : string) (e : pq.Error)
    (offset : Z) :
  trace_of (Migrate E d f w) =
    pre ++ ReadContent None f' :: Exec q (Some (pq_Error_ptr e)) :: post ->
  strconv.Atoi (pq.Position e) = (offset, None) ->
  0 <= offset ->
  let lc := file_LineColumnFromOffset E (file.Content f') (offset - 1) in
  let errorPart :=
    file_LinesBeforeAndAfter E (file.Content f') (fst lc) 5 5 true in
  q = file.Content f' /\
  exists rb,
    post =
      Send (VError (errors.New (located_message e (fst lc) (snd lc) errorPart)))
      :: Rollback rb :: report rb ++ [Close].
Proof.
  intros Ht Ha Ho lc errorPart. revert Ht. run; intros Ht; split_trace Ht.
  all: match goal with
       | H : strconv.Atoi _ = (_, _) |- _ =>
           rewrite Ha in H; inversion H; subst; clear H
       end.
  all: try match goal with
       | H : (0 <=? _) = false |- _ => apply Z.leb_gt in H; lia
       end.
  all: subst errorPart lc.
  all: match goal with
       | H : file_LineColumnFromOffset _ _ _ = _ |- _ => rewrite H
       end.
  all: split;
       [ reflexivity
       | first [exists None; reflexivity | eexists (Some _); reflexivity] ].
Qed.

Lemma body_failure_located_witness :
  strconv.Atoi "8" = (8, None) /\ 0 <= 8 /\
  exists rb,
    [Send (VError (errorString
       ("ERROR 42601: syntax error at or near TBLE in line 1, column 8:"
        +++ nl +++ nl +++ "CREATE TBLE t(x int);")));
     Rollback None; Close] =
    Send (VError (errors.New
      (located_message
         (pq.mkError "ERROR" "42601" "syntax error at or near TBLE" "8")
         1 8 "CREATE TBLE t(x int);")))
    :: Rollback rb :: report rb ++ [Close].
Proof.
  split; [reflexivity|]. split; [lia|].
  apply (body_failure_located (scripted (body_fails None syntax_at_8))
           real_driver up4 tt
           [Send (VFile up4); Begin None; Exec create_table_stmt None;
            Exec (insert_stmt 4%N) None]
           [Send (VError (errorString
              ("ERROR 42601: syntax error at or near TBLE in line 1, column 8:"
               +++ nl +++ nl +++ "CREATE TBLE t(x int);")));
            Rollback None; Close]
           up4 (file.Content up4)
           (pq.mkError "ERROR" "42601" "syntax error at or near TBLE" "8")
           8 eq_refl eq_refl).
  lia.
Defined.

(** An engine error whose Position does not parse,
    or parses to a negative number, is reported with severity, code and
    message only, and the run goes on to the rollback. *)
Lemma body_failure_unlocated (E : Env) (d : Driver) (f : file.File)
    (w : W E)
    (pre post : list action) (f' : file.File) (q : string) (e : pq.Error) :
  trace_of (Migrate E d f w) =
    pre ++ ReadContent None f' :: Exec q (Some (pq_Error_ptr e)) :: post ->
  snd (strconv.Atoi (pq.Position e)) <> None \/
  fst (strconv.Atoi (pq.Position e)) < 0 ->
  completion_of (Migrate E d f w) = Normal tt /\
  exists rb,
    post = Send (VError (errors.New (plain_message e)))
           :: Rollback rb :: report rb ++ [Close].
Proof.
  intros Ht Ha. revert Ht. run; intros Ht; split_trace Ht.
  all: match goal with
       | H : strconv.Atoi _ = _ |- _ => rewrite H in Ha; cbn [fst snd] in Ha
       end.
  all: try (split;
       [ reflexivity
       | first [exists None; reflexivity | eexists (Some _); reflexivity] ]).
  all: exfalso; destruct Ha as [Ha|Ha]; [congruence|].
  all: match goal with
       | H : (0 <=? _) = true |- _ => apply Z.leb_le in H; lia
       end.
Qed.

(** An error of any other dynamic type stops the run at the type
    assertion: nothing is sent, nothing is rolled back, the deferred close
    runs and the call ends in a panic. *)
Lemma body_failure_foreign (E : Env) (d : Driver) (f : file.File)
    (w : W E)
    (pre post : list action) (f' : file.File) (q : string) (err : error) :
  trace_of (Migrate E d f w) =
    pre ++ ReadContent None f' :: Exec q (Some err) :: post ->
  (forall e, err <> pq_Error_ptr e) ->
  post = [Close] /\
  exists msg, completion_of (Migrate E d f w) = Panicked msg.
Proof.
  intros Ht Hf. revert Ht. run; intros Ht; split_trace Ht.
  all: try (exfalso; eapply Hf; reflexivity).
  all: split; [reflexivity|eexists; reflexivity].
Qed.

(** C6 at a failing input: the body's execution returns an error that is
    not an engine error (the connection broke).  The type assertion panics:
    the call ends in a panic, no error is sent and no rollback is asked
    for; only the deferred close runs. *)
Theorem foreign_error_panics :
  Migrate (scripted (body_fails None bad_connection)) real_driver up4 tt =
    (Panicked "interface conversion: error is not *pq.Error", tt,
     [Send (VFile up4); Begin None; Exec create_table_stmt None;
      Exec (insert_stmt 4%N) None; ReadContent None up4;
      Exec (file.Content up4) (Some bad_connection); Close]).
Proof. reflexivity. Qed.

(** ** Failure of the content load *)

(** C9.  When the content load fails, the error is sent and the channel
    closed: nothing else follows, the transaction begun earlier is neither
    rolled back nor committed, and the load error is the only error of the
    run.  By contrast, a statement that fails before the content load
    (bootstrap or bookkeeping) is followed by its error and a rollback, and
    so is a body refused with an engine error. *)
Theorem content_load_failure (E : Env) (d : Driver) (f : file.File)
    (w : W E) :
  let t := trace_of (Migrate E d f w) in
  (forall pre err f' post,
     t = pre ++ ReadContent (Some err) f' :: post ->
     post = [Send (VError err); Close] /\
     In (Begin None) pre /\
     forallb (fun a => negb (is_Rollback a || is_Commit a)) t = true /\
     errors_of t = [VError err] /\
     completion_of (Migrate E d f w) = Normal tt) /\
  (forall pre q err post,
     t = pre ++ Exec q (Some err) :: post ->
     forallb (fun a => negb (is_ReadContent a)) pre = true ->
     exists rb,
       post = Send (VError err) :: Rollback rb :: report rb ++ [Close]) /\
  (forall pre f' q e post,
     t = pre ++ ReadContent None f' :: Exec q (Some (pq_Error_ptr e)) :: post ->
     exists msg rb,
       post = Send (VError (errors.New msg)) :: Rollback rb
              :: report rb ++ [Close]).
Proof.
  intros t; subst t. split; [|split].
  - intros pre err f' post. run; intros Ht; split_trace Ht.
    all: repeat split; cbn [In]; tauto.
  - intros pre q err post. run; intros Ht Hp; split_trace Ht.
    all: try discriminate Hp.
    all: first [exists None; reflexivity | eexists (Some _); reflexivity].
  - intros pre f' q e post. run; intros Ht; split_trace Ht.
    all: eexists;
         first [exists None; reflexivity | eexists (Some _); reflexivity].
Qed.

Lemma content_load_failure_witness :
  [Send (VError no_such_file); Close] = [Send (VError no_such_file); Close] /\
  In (Begin None)
    [Send (VFile up3); Begin None; Exec create_table_stmt None;
     Exec (insert_stmt 3%N) None] /\
  forallb (fun a => negb (is_Rollback a || is_Commit a))
    (trace_of (Migrate (scripted read_fails) real_driver up3 tt)) = true /\
  errors_of (trace_of (Migrate (scripted read_fails) real_driver up3 tt)) =
    [VError no_such_file] /\
  completion_of (Migrate (scripted read_fails) real_driver up3 tt) = Normal tt.
Proof.
  apply (proj1 (content_load_failure (scripted read_fails) real_driver up3 tt)
           [Send (VFile up3); Begin None; Exec create_table_stmt None;
            Exec (insert_stmt 3%N) None]
           no_such_file up3 [Send (VError no_such_file); Close]).
  reflexivity.
Defined.

(** ** A file without a direction *)

(** C10.  For a file whose direction is neither Up nor Down, no
    bookkeeping statement is issued: a run issues no statement, or the
    bootstrap statement alone, or the bootstrap statement and the loaded
    body.  Once begin and the bootstrap statement have succeeded, the run
    continues at once with the content load, the body and the commit, in
    the world the bootstrap statement left, and ends as they end. *)
Theorem no_direction_no_bookkeeping (E : Env) (d : Driver) (f : file.File)
    (w : W E) :
  file.Direction f <> direction.Up ->
  file.Direction f <> direction.Down ->
  let t := trace_of (Migrate E d f w) in
  (filter is_statement t = [] \/
   (exists r, filter is_statement t = [issued d create_table_stmt r]) \/
   (exists f' r,
      In (ReadContent None f') t /\
      filter is_statement t =
        [issued d create_table_stmt None; issued d (file.Content f') r])) /\
  forall w1 w2 t2,
    db_Begin E w = (None, w1) ->
    exec E d create_table_stmt w1 = (Normal None, w2, t2) ->
    Migrate E d f w =
      let '(c, w3, t3) := Migrate_rest E d f w2 in
      (finish c, w3, Send (VFile f) :: Begin None :: t2 ++ t3 ++ [Close]).
Proof.
  intros Hu Hd t.
  assert (Hu' : (file.Direction f =? direction.Up) = false)
    by (apply Z.eqb_neq; exact Hu).
  assert (Hd' : (file.Direction f =? direction.Down) = false)
    by (apply Z.eqb_neq; exact Hd).
  split.
  - subst t. unfold issued. run; try congruence.
    all: classify_statements.
  - intros w1 w2 t2 Hb He.
    unfold Migrate, Migrate_body, bind, send, sql_DB_Begin, call, ret.
    rewrite Hb, He, Hu', Hd'.
    destruct (Migrate_rest E d f w2) as [[c w3] t3].
    cbn [app]. rewrite <- app_assoc. reflexivity.
Qed.

Lemma no_direction_no_bookkeeping_witness :
  Migrate (scripted all_ok) real_driver sideways5 tt =
    (Normal tt, tt,
     [Send (VFile sideways5); Begin None; Exec create_table_stmt None;
      ReadContent None sideways5; Exec (file.Content sideways5) None;
      Commit None; Close]).
Proof.
  assert (Hu : file.Direction sideways5 <> direction.Up) by discriminate.
  assert (Hd : file.Direction sideways5 <> direction.Down) by discriminate.
  exact (proj2 (no_direction_no_bookkeeping (scripted all_ok) real_driver
                  sideways5 tt Hu Hd)
           tt tt [Exec create_table_stmt None] eq_refl eq_refl).
Defined.

(** For comparison: in a run with direction Up the INSERT comes between
    the bootstrap statement and the same continuation. *)
Lemma up_run_continues (E : Env) (d : Driver) (f : file.File) (w : W E)
    (w1 w2 w3 : W E) (t2 t3 : list action) :
  file.Direction f = direction.Up ->
  db_Begin E w = (None, w1) ->
  exec E d create_table_stmt w1 = (Normal None, w2, t2) ->
  exec E d (insert_stmt (file.Version f)) w2 = (Normal None, w3, t3) ->
  Migrate E d f w =
    let '(c, w4, t4) := Migrate_rest E d f w3 in
    (finish c, w4, Send (VFile f) :: Begin None :: t2 ++ t3 ++ t4 ++ [Close]).
Proof.
  intros Hu Hb He Hi.
  unfold Migrate, Migrate_body, bind, send, sql_DB_Begin, call, ret.
  rewrite Hb, He, Hu. cbn [Z.eqb Pos.eqb direction.Up]. rewrite Hi.
  destruct (Migrate_rest E d f w3) as [[c w4] t4].
  cbn [app]. rewrite app_nil_r, <- !app_assoc. reflexivity.
Qed.

(** ** The current version *)

(** C7, as stated, fails: the result of Version is a version and an error,
    and it is the same for an empty table and for a table whose greatest
    version is 0, so nothing computed from it can tell whether a version was
    found. *)
Lemma Version_has_no_found_flag :
  ~ exists found : uint64 * option error -> bool,
      found (fst (Version table_db real_driver [])) = false /\
      found (fst (Version table_db real_driver [0%N])) = true.
Proof.
  intros [found [Hempty Hzero]].
  change (found (0%N, None) = false) in Hempty.
  change (found (0%N, None) = true) in Hzero.
  congruence.
Qed.

(** C7, amended.  Version sends the query for the greatest version and
    returns version 0 without an error when the query reports no rows, 0
    with the error for any other error, and the scanned version without an
    error otherwise; on the bookkeeping table that is the greatest version
    present, and 0 when there is none. *)
Theorem Version_result (d : Driver) :
  (forall (E : Env) (w : W E) err v w',
     db_QueryRow_Scan E version_query w = (err, v, w') ->
     (err = Some sql_ErrNoRows ->
      Version E d w = (0%N, None, w')) /\
     (forall e, err = Some e -> e <> sql_ErrNoRows ->
      Version E d w = (0%N, Some e, w')) /\
     (err = None -> Version E d w = (v, None, w'))) /\
  (forall rows,
     Version table_db d rows = (greatest rows, None, rows)).
Proof.
  split.
  - intros E w err v w' Hq. unfold Version. rewrite Hq.
    split; [|split].
    + intros ->. reflexivity.
    + intros e -> Hne. destruct e; try reflexivity. contradiction.
    + intros ->. reflexivity.
  - intros [|r rows]; reflexivity.
Qed.

Lemma Version_result_witness :
  Version table_db real_driver [2; 7; 3]%N = (7%N, None, [2; 7; 3]%N) /\
  Version table_db real_driver [] = (0%N, None, []).
Proof.
  split.
  - apply (proj2 (Version_result real_driver) [2; 7; 3]%N).
  - exact (proj1 (proj1 (Version_result real_driver) table_db []
                      (Some sql_ErrNoRows) 0%N [] eq_refl) eq_refl).
Defined.

(** * Further properties of Migrate *)

(** ** Failure of begin *)

(** When begin fails, the run is over after reporting it: the file was sent
    before, the error and the close follow, and no statement, content load,
    rollback or commit is attempted. *)
Theorem begin_failure_ends_run (E : Env) (d : Driver) (f : file.File)
    (w : W E) (pre post : list action) (e : error) :
  trace_of (Migrate E d f w) = pre ++ Begin (Some e) :: post ->
  pre = [Send (VFile f)] /\
  post = [Send (VError e); Close] /\
  completion_of (Migrate E d f w) = Normal tt.
Proof.
  run; intros Ht; split_trace Ht.
  all: repeat split; reflexivity.
Qed.

Lemma begin_failure_ends_run_witness :
  [Send (VFile up3)] = [Send (VFile up3)] /\
  [Send (VError bad_connection); Close] =
    [Send (VError bad_connection); Close] /\
  completion_of (Migrate (scripted begin_fails) real_driver up3 tt) = Normal tt.
Proof.
  apply (begin_failure_ends_run (scripted begin_fails) real_driver up3 tt
           [Send (VFile up3)] [Send (VError bad_connection); Close]
           bad_connection).
  reflexivity.
Defined.

(** ** The life of the transaction *)

(** Every run calls begin exactly once, as its first call, and ends the
    transaction at most once: a trace holds at most one commit or rollback,
    never both, and none unless begin succeeded. *)
Theorem transaction_ended_at_most_once (E : Env) (d : Driver) (f : file.File)
    (w : W E) :
  let t := trace_of (Migrate E d f w) in
  List.length (filter is_Begin t) = 1%nat /\
  (List.length (filter ends_tx t) <= 1)%nat /\
  (filter ends_tx t <> [] -> In (Begin None) t).
Proof.
  run.
  all: split; [reflexivity|split; [cbn; lia|]].
  all: cbn; intros H; first [tauto | contradiction H; reflexivity].
Qed.

(** A transaction that was begun is left open, neither committed nor rolled
    back, exactly when the content load failed or the run panicked. *)
Theorem transaction_left_open (E : Env) (d : Driver) (f : file.File)
    (w : W E) :
  let t := trace_of (Migrate E d f w) in
  In (Begin None) t ->
  (filter ends_tx t = [] <->
   (exists e f', In (ReadContent (Some e) f') t) \/
   is_panic (completion_of (Migrate E d f w)) = true).
Proof.
  run; intros Hb; pick Hb.
  all: split;
       [ intros Hn; try discriminate Hn;
         first [ left; do 2 eexists; cbn [In]; tauto | right; reflexivity ]
       | intros [[e' [f' Hr]]|Hp];
         [ pick Hr; reflexivity | first [discriminate Hp | reflexivity] ] ].
Qed.

Lemma transaction_left_open_witness :
  filter ends_tx
    (trace_of (Migrate (scripted read_fails) real_driver up3 tt)) = [].
Proof.
  assert (Hb : In (Begin None)
                 (trace_of (Migrate (scripted read_fails) real_driver up3 tt))).
  { cbn. tauto. }
  apply (proj2 (transaction_left_open (scripted read_fails) real_driver up3 tt
                  Hb)).
  left. exists no_such_file, up3. cbn. tauto.
Defined.

(** ** Commit, rollback and what the consumer sees *)



(** A commit is attempted only after every earlier call succeeded and
    nothing but the file (and, in simulate mode, statement texts) was sent;
    it is followed by its own error, if any, and the close: a failed commit
    is not rolled back. *)
Theorem commit_only_after_success (E : Env) (d : Driver) (f : file.File)
    (w : W E) (pre post : list action) (r : option error) :
  trace_of (Migrate E d f w) = pre ++ Commit r :: post ->
  forallb (fun a => negb (failed_call a)) pre = true /\
  errors_of pre = [] /\
  post = report r ++ [Close] /\
  completion_of (Migrate E d f w) = Normal tt.
Proof.
  run; intros Ht; split_trace Ht.
  all: repeat split; reflexivity.
Qed.

Lemma commit_only_after_success_witness :
  forallb (fun a => negb (failed_call a))
    [Send (VFile up3); Begin None; Exec create_table_stmt None;
     Exec (insert_stmt 3%N) None; ReadContent None up3;
     Exec (file.Content up3) None] = true /\
  errors_of
    [Send (VFile up3); Begin None; Exec create_table_stmt None;
     Exec (insert_stmt 3%N) None; ReadContent None up3;
     Exec (file.Content up3) None] = [] /\
  [Send (VError bad_connection); Close] =
    report (Some bad_connection) ++ [Close] /\
  completion_of (Migrate (scripted commit_fails) real_driver up3 tt) =
    Normal tt.
Proof.
  apply (commit_only_after_success (scripted commit_fails) real_driver up3 tt
           [Send (VFile up3); Begin None; Exec create_table_stmt None;
            Exec (insert_stmt 3%N) None; ReadContent None up3;
            Exec (file.Content up3) None]
           [Send (VError bad_connection); Close] (Some bad_connection)).
  reflexivity.
Defined.

(** Without a panic, the consumer sees no error exactly when the
    transaction was committed. *)
Theorem no_error_iff_committed (E : Env) (d : Driver) (f : file.File)
    (w : W E) :
  let t := trace_of (Migrate E d f w) in
  is_panic (completion_of (Migrate E d f w)) = false ->
  (errors_of t = [] <-> In (Commit None) t).
Proof.
  run; intros Hp; try discriminate Hp.
  all: split; [intros He; try discriminate He; cbn [In]; tauto|].
  all: intros Hc; pick Hc; reflexivity.
Qed.

Lemma no_error_iff_committed_witness :
  errors_of (trace_of (Migrate (scripted all_ok) real_driver up3 tt)) = [] <->
  In (Commit None) (trace_of (Migrate (scripted all_ok) real_driver up3 tt)).
Proof.
  apply (no_error_iff_committed (scripted all_ok) real_driver up3 tt).
  reflexivity.
Defined.

(** Every rollback comes right after an error was sent, and is followed by
    its own error, if any, and the close. *)
Theorem rollback_follows_report (E : Env) (d : Driver) (f : file.File)
    (w : W E) (pre post : list action) (r : option error) :
  trace_of (Migrate E d f w) = pre ++ Rollback r :: post ->
  (exists e, last pre Close = Send (VError e)) /\
  post = report r ++ [Close] /\
  simulate d = false.
Proof.
  run; intros Ht; split_trace Ht.
  all: split; [eexists; reflexivity|split; reflexivity].
Qed.

Lemma rollback_follows_report_witness :
  (exists e,
     last [Send (VFile up3); Begin None;
           Exec create_table_stmt (Some permission_denied);
           Send (VError permission_denied)] Close = Send (VError e)) /\
  [Send (VError bad_connection); Close] =
    report (Some bad_connection) ++ [Close] /\
  simulate real_driver = false.
Proof.
  apply (rollback_follows_report (scripted bootstrap_and_rollback_fail)
           real_driver up3 tt
           [Send (VFile up3); Begin None;
            Exec create_table_stmt (Some permission_denied);
            Send (VError permission_denied)]
           [Send (VError bad_connection); Close] (Some bad_connection)).
  reflexivity.
Defined.

(** The only panic is the type assertion on a body error. *)
Theorem panic_only_at_assertion (E : Env) (d : Driver) (f : file.File)
    (w : W E) (msg : string) :
  completion_of (Migrate E d f w) = Panicked msg ->
  simulate d = false /\
  exists pre f' q err,
    trace_of (Migrate E d f w) =
      pre ++ [ReadContent None f'; Exec q (Some err); Close] /\
    (forall e, err <> pq_Error_ptr e) /\
    forallb (fun a => negb (failed_call a)) pre = true.
Proof.
  intros Hp. split.
  - revert Hp. run; intros Hp; first [discriminate Hp | reflexivity].
  - exists (removelast (removelast (removelast
              (trace_of (Migrate E d f w))))).
    revert Hp. run; intros Hp; try discriminate Hp.
    all: do 3 eexists; split; [reflexivity|split; [|reflexivity]].
    all: intros e0 He; discriminate He.
Qed.

Lemma panic_only_at_assertion_witness :
  simulate real_driver = false /\
  exists pre f' q err,
    trace_of (Migrate (scripted (body_fails None bad_connection))
                real_driver up4 tt) =
      pre ++ [ReadContent None f'; Exec q (Some err); Close] /\
    (forall e, err <> pq_Error_ptr e) /\
    forallb (fun a => negb (failed_call a)) pre = true.
Proof.
  apply (panic_only_at_assertion (scripted (body_fails None bad_connection))
           real_driver up4 tt
           "interface conversion: error is not *pq.Error").
  reflexivity.
Defined.

(** ** Simulate mode and error forwarding *)



(** In simulate mode a run never panics, sends at most three strings and
    at most one error. *)
Theorem simulate_never_panics (E : Env) (d : Driver) (f : file.File)
    (w : W E) :
  simulate d = true ->
  let t := trace_of (Migrate E d f w) in
  completion_of (Migrate E d f w) = Normal tt /\
  (List.length (errors_of t) <= 1)%nat /\
  (List.length (filter is_string (pipe_of t)) <= 3)%nat.
Proof.
  intros Hs. run; try discriminate Hs.
  all: split; [reflexivity|split; cbn; lia].
Qed.

Lemma simulate_never_panics_witness :
  completion_of (Migrate (scripted read_fails) simulating down3 tt) =
    Normal tt /\
  (List.length (errors_of (trace_of
     (Migrate (scripted read_fails) simulating down3 tt))) <= 1)%nat /\
  (List.length (filter is_string (pipe_of (trace_of
     (Migrate (scripted read_fails) simulating down3 tt)))) <= 3)%nat.
Proof.
  apply (simulate_never_panics (scripted read_fails) simulating down3 tt).
  reflexivity.
Defined.

(** In simulate mode the outcome depends on begin, the content load and
    commit alone. *)
Theorem simulate_ignores_statement_results (W0 : Type)
    (db_begin : W0 -> option error * W0)
    (exec1 exec2 : string -> W0 -> option error * W0)
    (rollback1 rollback2 : W0 -> option error * W0)
    (commit : W0 -> option error * W0)
    (read : file.File -> W0 -> option error * file.File * W0)
    (q1 q2 : string -> W0 -> option error * uint64 * W0)
    (lc1 lc2 : string -> Z -> Z * Z)
    (lb1 lb2 : string -> Z -> Z -> Z -> bool -> string)
    (d : Driver) (f : file.File) (w : W0) :
  simulate d = true ->
  Migrate (mk_Env W0 db_begin exec1 rollback1 commit read q1 lc1 lb1) d f w =
  Migrate (mk_Env W0 db_begin exec2 rollback2 commit read q2 lc2 lb2) d f w.
Proof.
  intros Hs. unfold_run. rewrite Hs. cbn.
  destruct (db_begin w) as [[e|] w1]; [reflexivity|].
  destruct (file.Direction f =? direction.Up);
    [|destruct (file.Direction f =? direction.Down)].
  all: cbn; destruct (read f w1) as [[[e|] f'] w2]; [reflexivity|].
  all: cbn; destruct (commit w2) as [[e|] w3]; reflexivity.
Qed.

Lemma simulate_ignores_statement_results_witness :
  Migrate (scripted all_ok) simulating up3 tt =
  Migrate (scripted bootstrap_and_rollback_fail) simulating up3 tt.
Proof.
  apply (simulate_ignores_statement_results unit
           (fun w => (None, w))
           (fun q w => (None, w))
           (fun q w => (fails_on create_table_stmt permission_denied q, w))
           (fun w => (None, w)) (fun w => (Some bad_connection, w))
           (fun w => (None, w)) (fun f w => (None, f, w))
           (fun q w => (Some sql_ErrNoRows, 0%N, w))
           (fun q w => (Some sql_ErrNoRows, 0%N, w))
           (fun s off => line_column s (Z.to_nat off) 1 1)
           (fun s off => line_column s (Z.to_nat off) 1 1)
           (fun s line before after numbers => s)
           (fun s line before after numbers => s)
           simulating up3 tt).
  reflexivity.
Defined.

(** Every error the environment returns, other than an error of the body,
    is sent on the channel unchanged, right after the failed call. *)
Theorem failure_reported_unchanged (E : Env) (d : Driver) (f : file.File)
    (w : W E) (pre post : list action) (a : action) (e : error) :
  trace_of (Migrate E d f w) = pre ++ a :: post ->
  error_of a = Some e ->
  is_Exec a && existsb is_ReadContent pre = false ->
  hd_error post = Some (Send (VError e)).
Proof.
  intros Ht He Hb. revert Ht. run; intros Ht.
  all: repeat
    (match type of Ht with
     | [] = ?p ++ _ => destruct p; discriminate Ht
     | _ :: _ = ?p ++ _ =>
         destruct p as [|? ?]; cbn [app] in Ht;
         [ injection Ht as <- <-;
           first [ discriminate He | discriminate Hb
                 | injection He as <-; reflexivity ]
         | injection Ht as <- Ht ]
     end).
Qed.

Lemma failure_reported_unchanged_witness :
  hd_error [Send (VError no_such_file); Close] =
    Some (Send (VError no_such_file)).
Proof.
  apply (failure_reported_unchanged (scripted read_fails) real_driver up3 tt
           [Send (VFile up3); Begin None; Exec create_table_stmt None;
            Exec (insert_stmt 3%N) None]
           [Send (VError no_such_file); Close]
           (ReadContent (Some no_such_file) up3) no_such_file);
    reflexivity.
Defined.

(** ** The body error, in general *)

Lemma body_failure_unlocated_witness :
  completion_of (Migrate (scripted (body_fails None syntax_nowhere))
                   real_driver up4 tt) = Normal tt /\
  exists rb,
    [Send (VError (errors.New
       (plain_message (pq.mkError "ERROR" "42601"
                         "syntax error at end of input" EmptyString))));
     Rollback None; Close] =
    Send (VError (errors.New
       (plain_message (pq.mkError "ERROR" "42601"
                         "syntax error at end of input" EmptyString))))
    :: Rollback rb :: report rb ++ [Close].
Proof.
  apply (body_failure_unlocated (scripted (body_fails None syntax_nowhere))
           real_driver up4 tt
           [Send (VFile up4); Begin None; Exec create_table_stmt None;
            Exec (insert_stmt 4%N) None]
           [Send (VError (errors.New
              (plain_message (pq.mkError "ERROR" "42601"
                                "syntax error at end of input" EmptyString))));
            Rollback None; Close]
           up4 (file.Content up4)
           (pq.mkError "ERROR" "42601" "syntax error at end of input"
              EmptyString)).
  - reflexivity.
  - left. discriminate.
Defined.

Lemma body_failure_foreign_witness :
  [Close] = [Close] /\
  exists msg,
    completion_of (Migrate (scripted (body_fails None bad_connection))
                     real_driver up4 tt) = Panicked msg.
Proof.
  apply (body_failure_foreign (scripted (body_fails None bad_connection))
           real_driver up4 tt
           [Send (VFile up4); Begin None; Exec create_table_stmt None;
            Exec (insert_stmt 4%N) None]
           [Close] up4 (file.Content up4) bad_connection).
  - reflexivity.
  - intros e He. discriminate He.
Defined.

(** * Migrate and Version on the engine *)

(** *** The statements of the driver, read back *)

Lemma strip_prefix_append (p s : string) : strip_prefix p (p +++ s) = Some s.
Proof.
  induction p as [|c p IH]; cbn; [reflexivity|].
  rewrite Ascii.eqb_refl. exact IH.
Qed.

Lemma chop_last_append (s : string) (c : ascii) :
  chop_last (s +++ String c EmptyString) = Some (s, c).
Proof.
  induction s as [|a s IH]; [reflexivity|].
  cbn [String.append chop_last]. rewrite IH.
  destruct s; reflexivity.
Qed.

Lemma read_version_fmt (v : N) : read_version (fmt_uint v) = Some v.
Proof.
  unfold read_version, fmt_uint.
  destruct (N.to_uint v) eqn:Hv.
  1: { pose proof (DecimalN.Unsigned.of_to v) as H. rewrite Hv in H. subst v.
       reflexivity. }
  all: rewrite <- Hv.
  all: rewrite NilZero.usu by (rewrite Hv; discriminate).
  all: cbn [option_map]; rewrite DecimalN.Unsigned.of_to; reflexivity.
Qed.

Lemma recognise_create : recognise create_table_stmt = Bootstrap.
Proof. reflexivity. Qed.

Lemma recognise_insert (v : N) : recognise (insert_stmt v) = Insert v.
Proof.
  unfold recognise.
  change (insert_stmt v)
    with (insert_prefix +++ fmt_uint v +++ String ")"%char EmptyString).
  replace (String.eqb _ create_table_stmt) with false by reflexivity.
  rewrite strip_prefix_append, chop_last_append, read_version_fmt.
  reflexivity.
Qed.

Lemma recognise_delete (v : N) : recognise (delete_stmt v) = Delete v.
Proof.
  unfold recognise.
  replace (String.eqb _ create_table_stmt) with false by reflexivity.
  replace (strip_prefix insert_prefix (delete_stmt v)) with (@None string)
    by reflexivity.
  change (delete_stmt v) with (delete_prefix +++ fmt_uint v).
  rewrite strip_prefix_append, read_version_fmt.
  reflexivity.
Qed.

Lemma existsb_eqb_In (v : N) (rows : list N) :
  existsb (N.eqb v) rows = true <-> In v rows.
Proof.
  rewrite existsb_exists. split.
  - intros [x [Hx He]]. apply N.eqb_eq in He. subst x. exact Hx.
  - intros H. exists v. split; [exact H|apply N.eqb_refl].
Qed.

Ltac engine_reduce :=
  cbn -[String.append separator create_table_stmt insert_stmt delete_stmt
        located_message plain_message strconv.Atoi Z.leb Z.eqb Z.sub
        recognise N.ltb N.eqb existsb filter greatest version_query
        String.eqb int4_max].

Ltac engine_step :=
  match goal with
  | |- context [recognise create_table_stmt] => rewrite recognise_create
  | |- context [recognise (insert_stmt ?v)] => rewrite (recognise_insert v)
  | |- context [recognise (delete_stmt ?v)] => rewrite (recognise_delete v)
  | H : ?x = _ |- context [match ?x with _ => _ end] => rewrite H
  | |- context [match ?x with _ => _ end] =>
      lazymatch x with
      | context [match _ with _ => _ end] => fail
      | _ => destruct x eqn:?
      end
  end.

Ltac engine_run :=
  unfold_run; unfold pg_Exec, pg_Commit; engine_reduce;
  repeat (engine_step; unfold pg_Exec, pg_Commit; engine_reduce).

(** Whatever goes wrong, the table is as it was: a run that sends an error
    or panics leaves the committed rows unchanged. *)
Theorem failed_run_changes_nothing (refuse : string -> option error)
    (load : file.File -> option error * file.File) (d : Driver)
    (f : file.File) (rows : list N) :
  let r := Migrate (postgres refuse load) d f (mk_pg rows None) in
  errors_of (trace_of r) <> [] \/ is_panic (completion_of r) = true ->
  committed (snd (fst r)) = rows.
Proof.
  engine_run.
  all: try reflexivity.
  all: intros [H|H]; first [contradiction H; reflexivity | discriminate H].
Qed.

Lemma failed_run_changes_nothing_witness :
  committed (snd (fst
    (Migrate (postgres (fails_on (file.Content up4) syntax_at_8) loaded)
       real_driver up4 (mk_pg [3; 1]%N None)))) = [3; 1]%N.
Proof.
  apply (failed_run_changes_nothing
           (fails_on (file.Content up4) syntax_at_8) loaded real_driver up4
           [3; 1]%N).
  left. discriminate.
Defined.

(** Closes the branches that contradict the hypotheses at hand. *)
Ltac off_path :=
  try congruence;
  try match goal with
      | H : file.Direction _ = _, H' : (file.Direction _ =? _) = _ |- _ =>
          rewrite H in H'; discriminate H'
      end;
  try match goal with
      | H : existsb _ _ = true, H' : ~ In _ _ |- _ =>
          apply existsb_eqb_In in H; contradiction
      | H : existsb _ _ = false, H' : In _ _ |- _ =>
          apply existsb_eqb_In in H'; congruence
      | H : (_ <? _)%N = true |- _ => apply N.ltb_lt in H; lia
      | H : (_ <? _)%N = false |- _ => apply N.ltb_ge in H; lia
      end.

(** Apply on the engine, with simulate off and no transaction open
    before: when the version is new and within the column's range, the
    content loads, and the body is a statement that the engine accepts and
    that is not itself one of the statements on the bookkeeping table
    (bootstrap, INSERT or DELETE of a version), the run ends without an
    error, the version is committed on top of the rows that were there, no
    transaction stays open, and Version then reports the greatest of the
    version and those rows. *)
Theorem apply_records_version (refuse : string -> option error)
    (load : file.File -> option error * file.File) (d : Driver)
    (f f' : file.File) (rows : list N) :
  simulate d = false ->
  file.Direction f = direction.Up ->
  ~ In (file.Version f) rows ->
  (file.Version f <= int4_max)%N ->
  load f = (None, f') ->
  recognise (file.Content f') = Other ->
  refuse (file.Content f') = None ->
  let r := Migrate (postgres refuse load) d f (mk_pg rows None) in
  completion_of r = Normal tt /\
  errors_of (trace_of r) = [] /\
  snd (fst r) = mk_pg (file.Version f :: rows) None /\
  fst (Version (postgres refuse load) d (snd (fst r))) =
    (N.max (file.Version f) (greatest rows), None).
Proof.
  intros Hs Hd Hn Hv Hl Hb Hr. engine_run; off_path.
  repeat split; reflexivity.
Qed.

Lemma apply_records_version_witness :
  snd (fst (Migrate (postgres accept_all loaded) real_driver up3
              (mk_pg [1; 2]%N None))) = mk_pg [3; 1; 2]%N None /\
  fst (Version (postgres accept_all loaded) real_driver
         (snd (fst (Migrate (postgres accept_all loaded) real_driver up3
                      (mk_pg [1; 2]%N None))))) = (3%N, None).
Proof.
  assert (Hn : ~ In (file.Version up3) [1; 2]%N).
  { cbn. intros [H|[H|H]]; [discriminate H|discriminate H|exact H]. }
  assert (Hv : (file.Version up3 <= int4_max)%N) by (cbn; discriminate).
  pose proof (apply_records_version accept_all loaded real_driver up3 up3
                [1; 2]%N eq_refl eq_refl Hn Hv eq_refl eq_refl eq_refl) as H.
  exact (proj2 (proj2 H)).
Defined.

(** Revert on the engine, with simulate off and no transaction open
    before: when the content loads and the body is a statement that the
    engine accepts and that is not itself one of the statements on the
    bookkeeping table (bootstrap, INSERT or DELETE of a version), the run
    ends without an error, no transaction stays open, and the committed
    rows are exactly the earlier rows other than the file's version. *)
Theorem revert_removes_version (refuse : string -> option error)
    (load : file.File -> option error * file.File) (d : Driver)
    (f f' : file.File) (rows : list N) :
  simulate d = false ->
  file.Direction f = direction.Down ->
  load f = (None, f') ->
  recognise (file.Content f') = Other ->
  refuse (file.Content f') = None ->
  let r := Migrate (postgres refuse load) d f (mk_pg rows None) in
  errors_of (trace_of r) = [] /\
  pending (snd (fst r)) = None /\
  forall x, In x (committed (snd (fst r))) <->
            In x rows /\ x <> file.Version f.
Proof.
  intros Hs Hd Hl Hb Hr. engine_run; off_path.
  split; [reflexivity|split; [reflexivity|]].
  intros x. rewrite filter_In, negb_true_iff, N.eqb_neq. tauto.
Qed.

Lemma revert_removes_version_witness :
  In 1%N (committed (snd (fst
    (Migrate (postgres accept_all loaded) real_driver down3
       (mk_pg [3; 1]%N None))))) /\
  ~ In 3%N (committed (snd (fst
    (Migrate (postgres accept_all loaded) real_driver down3
       (mk_pg [3; 1]%N None))))).
Proof.
  pose proof (proj2 (proj2 (revert_removes_version accept_all loaded
                              real_driver down3 down3 [3; 1]%N
                              eq_refl eq_refl eq_refl eq_refl eq_refl)))
    as H.
  split.
  - apply (proj2 (H 1%N)). split; [cbn; tauto|discriminate].
  - intros H3. apply (proj1 (H 3%N)) in H3. destruct H3 as [_ Hne].
    apply Hne. reflexivity.
Defined.

(** Apply of a version that is already recorded, or that does not fit the
    integer column, is refused at the bookkeeping statement: the engine's
    error is sent, the transaction rolled back, the content never loaded
    and the table left as it was. *)
Theorem apply_refused (refuse : string -> option error)
    (load : file.File -> option error * file.File) (d : Driver)
    (f : file.File) (rows : list N) :
  simulate d = false ->
  file.Direction f = direction.Up ->
  In (file.Version f) rows \/ (int4_max < file.Version f)%N ->
  let r := Migrate (postgres refuse load) d f (mk_pg rows None) in
  exists e,
    trace_of r =
      [Send (VFile f); Begin None; Exec create_table_stmt None;
       Exec (insert_stmt (file.Version f)) (Some e); Send (VError e);
       Rollback None; Close] /\
    snd (fst r) = mk_pg rows None.
Proof.
  intros Hs Hd Hv. engine_run.
  all: try (eexists; split; reflexivity).
  all: destruct Hv; off_path.
Qed.

Lemma apply_refused_witness :
  exists e,
    trace_of (Migrate (postgres accept_all loaded) real_driver up3
                (mk_pg [3]%N None)) =
      [Send (VFile up3); Begin None; Exec create_table_stmt None;
       Exec (insert_stmt 3%N) (Some e); Send (VError e);
       Rollback None; Close] /\
    snd (fst (Migrate (postgres accept_all loaded) real_driver up3
                (mk_pg [3]%N None))) = mk_pg [3]%N None.
Proof.
  apply (apply_refused accept_all loaded real_driver up3 [3]%N
           eq_refl eq_refl).
  left. cbn. tauto.
Defined.

(** A failed content load leaves the transaction open on the engine: the
    bookkeeping write is pending, neither committed nor rolled back. *)
Theorem load_failure_leaves_write_pending (refuse : string -> option error)
    (load : file.File -> option error * file.File) (d : Driver)
    (f f' : file.File) (rows : list N) (e : error) :
  simulate d = false ->
  file.Direction f = direction.Up ->
  ~ In (file.Version f) rows ->
  (file.Version f <= int4_max)%N ->
  load f = (Some e, f') ->
  let r := Migrate (postgres refuse load) d f (mk_pg rows None) in
  snd (fst r) = mk_pg rows (Some (file.Version f :: rows)) /\
  errors_of (trace_of r) = [VError e].
Proof.
  intros Hs Hd Hn Hv Hl. engine_run; off_path.
  all: split; reflexivity.
Qed.

Lemma load_failure_leaves_write_pending_witness :
  snd (fst (Migrate (postgres accept_all unreadable) real_driver up3
              (mk_pg [1]%N None))) = mk_pg [1]%N (Some [3; 1]%N) /\
  errors_of (trace_of (Migrate (postgres accept_all unreadable) real_driver
                         up3 (mk_pg [1]%N None))) = [VError no_such_file].
Proof.
  assert (Hn : ~ In (file.Version up3) [1]%N).
  { cbn. intros [H|H]; [discriminate H|exact H]. }
  assert (Hv : (file.Version up3 <= int4_max)%N) by (cbn; discriminate).
  exact (load_failure_leaves_write_pending accept_all unreadable real_driver
           up3 up3 [1]%N no_such_file eq_refl eq_refl Hn Hv eq_refl).
Defined.

(** A simulated run never changes the table of the engine, and when the
    content loads it leaves no transaction behind. *)
Theorem simulate_changes_nothing (refuse : string -> option error)
    (load : file.File -> option error * file.File) (d : Driver)
    (f : file.File) (rows : list N) :
  simulate d = true ->
  let r := Migrate (postgres refuse load) d f (mk_pg rows None) in
  committed (snd (fst r)) = rows /\
  (fst (load f) = None -> snd (fst r) = mk_pg rows None).
Proof.
  intros Hs. engine_run; off_path.
  all: split; [reflexivity|intros H; first [discriminate H | reflexivity]].
Qed.

Lemma simulate_changes_nothing_witness :
  committed (snd (fst (Migrate (postgres accept_all loaded) simulating up3
                         (mk_pg [1]%N None)))) = [1]%N /\
  (fst (loaded up3) = None ->
   snd (fst (Migrate (postgres accept_all loaded) simulating up3
               (mk_pg [1]%N None))) = mk_pg [1]%N None).
Proof.
  exact (simulate_changes_nothing accept_all loaded simulating up3 [1]%N
           eq_refl).
Defined.

(** * Initialize and Close *)



(** Initialize puts a handle into the driver only when both the open and
    the ping succeeded, and then it is the handle that was opened and
    pinged; on an error the driver is as it was and the error is the one
    the failed call returned; the handle that failed the ping is not
    closed; the flags are never touched. *)
Theorem Initialize_outcome (S : lifecycle.SqlEnv) (url : string)
    (driver : lifecycle.Conn (lifecycle.DB S)) (w : lifecycle.SW S) :
  let r := lifecycle.Initialize S url driver w in
  let err := fst (fst (fst r)) in
  let driver' := snd (fst (fst r)) in
  let t := snd r in
  (err = None ->
   exists h,
     lifecycle.db driver' = Some h /\
     t = [lifecycle.Opened "postgres" url (inr h);
          lifecycle.Pinged h None]) /\
  (forall e, err = Some e ->
   driver' = driver /\
   (t = [lifecycle.Opened "postgres" url (inl e)] \/
    exists h, t = [lifecycle.Opened "postgres" url (inr h);
                   lifecycle.Pinged h (Some e)])) /\
  lifecycle.flags driver' = lifecycle.flags driver /\
  forallb (fun c => negb (lifecycle.is_Closed c)) t = true.
Proof.
  unfold lifecycle.Initialize.
  destruct (lifecycle.sql_Open S "postgres" url w) as [[e|h] w1].
  - cbn. split; [discriminate|]. split; [|split; reflexivity].
    intros e' [= <-]. split; [reflexivity|left; reflexivity].
  - destruct (lifecycle.db_Ping S h w1) as [[e|] w2]; cbn.
    + split; [discriminate|]. split; [|split; reflexivity].
      intros e' [= <-]. split; [reflexivity|right; exists h; reflexivity].
    + split; [|split; [discriminate|split; reflexivity]].
      intros _. exists h. split; reflexivity.
Qed.

(** After a successful Initialize, Close does not panic: it closes the
    very handle that was opened and returns what closing it returned.  On a
    driver that was never initialized Close panics. *)
Theorem Close_after_Initialize (S : lifecycle.SqlEnv) (url : string)
    (flags0 : Driver) (w w1 : lifecycle.SW S)
    (driver1 : lifecycle.Conn (lifecycle.DB S))
    (t1 : list (lifecycle.sql_call (lifecycle.DB S))) :
  lifecycle.Initialize S url (lifecycle.mk_Conn None flags0) w =
    (None, driver1, w1, t1) ->
  (exists h r w2,
     t1 = [lifecycle.Opened "postgres" url (inr h);
           lifecycle.Pinged h None] /\
     lifecycle.db_Close S h w1 = (r, w2) /\
     lifecycle.Close S driver1 w1 =
       (Normal r, w2, [lifecycle.Closed h r])) /\
  exists msg,
    lifecycle.Close S (lifecycle.mk_Conn None flags0) w = (Panicked msg, w, []).
Proof.
  unfold lifecycle.Initialize. intros Hi. split; [|eexists; reflexivity].
  destruct (lifecycle.sql_Open S "postgres" url w) as [[e|h] w0];
    [discriminate Hi|].
  destruct (lifecycle.db_Ping S h w0) as [[e|] w0'] eqn:Hp;
    [discriminate Hi|].
  injection Hi as <- <- <-.
  unfold lifecycle.Close. cbn [lifecycle.db].
  destruct (lifecycle.db_Close S h w0') as [r w2] eqn:Hc.
  exists h, r, w2.
  split; [reflexivity|split; [exact Hc|destruct r; reflexivity]].
Qed.

Lemma Close_after_Initialize_witness :
  (exists h r w2,
     [lifecycle.Opened "postgres" "postgres://localhost/db" (inr 1%nat);
      lifecycle.Pinged 1%nat None] =
     [lifecycle.Opened "postgres" "postgres://localhost/db" (inr h);
      lifecycle.Pinged h None] /\
     lifecycle.db_Close one_handle h tt = (r, w2) /\
     lifecycle.Close one_handle
       (lifecycle.mk_Conn (Some 1%nat) real_driver) tt =
       (Normal r, w2, [lifecycle.Closed h r])) /\
  exists msg,
    lifecycle.Close one_handle (lifecycle.mk_Conn None real_driver) tt =
      (Panicked msg, tt, []).
Proof.
  exact (Close_after_Initialize one_handle "postgres://localhost/db"
           real_driver tt tt
           (lifecycle.mk_Conn (Some 1%nat) real_driver)
           [lifecycle.Opened "postgres" "postgres://localhost/db"
              (inr 1%nat);
            lifecycle.Pinged 1%nat None]
           eq_refl).
Defined.
